(** * CodeBlock: fold controller, copy affordance and render input adapter

    Shallow embedding of
    [src/features/theme/themes/fuwari/components/content/code-block.tsx].

    The component is a React function component.  One mounted instance is
    modelled as a record [Instance] that holds the current props, the four
    [useState] cells, the [useRef] cell, the dependency value recorded by
    the last run of the layout effect, and the part of the browser the
    handlers talk to: the clipboard (as the log of texts written), the clock
    and the pending [setTimeout] timers.

    React's runtime is modelled as follows.
    - [useState] cells keep their value across re-renders of one instance;
      only mounting a new instance evaluates the initial values.
    - [useLayoutEffect(f, [html])] runs [f] after the commit of the mount and
      after the commit of every later render whose [html] differs from the
      one of the previous run.
    - a state setter replaces the value of its cell; the component body reads
      no cell between two setters of one handler, so batching is invisible.
    - [setTimeout(f, d)] registers a timer that fires once the clock has
      advanced by [d] milliseconds; nothing in the file calls [clearTimeout]. *)

From Stdlib Require Import String Ascii List Bool ZArith NArith Lia.
Import ListNotations.

Local Open Scope string_scope.

(** ** Props and the render input adapter *)

(** [interface CodeBlockProps]; an optional or nullable member is an
    [option]. *)
Record CodeBlockProps := mkProps {
  code : string;
  language : option string;
  highlightedHtml : option string
}.

Definition FOLD_THRESHOLD : Z := 400.

(** The character U+0022, which the class attribute of the fallback
    template is quoted with. *)
Definition dquote : string := String "034"%char EmptyString.

(** The text of the template literal before [${code}]. *)
Definition fallback_open : string :=
  "<pre class=" ++ dquote
  ++ "shiki font-mono text-sm leading-relaxed whitespace-pre-wrap text-(--fuwari-btn-content) bg-transparent! p-0 m-0 border-0"
  ++ dquote ++ "><code>".

(** The text of the template literal after [${code}]. *)
Definition fallback_close : string := "</code></pre>".

(** [const fallback = `<pre class=...><code>${code}</code></pre>`]:
    interpolating a string in a template literal inserts it as it is. *)
Definition fallback (c : string) : string :=
  fallback_open ++ c ++ fallback_close.

(** JavaScript's [a || b] on an optional string: [undefined] and the empty
    string are falsy, every other string is truthy. *)
Definition js_or (a : option string) (b : string) : string :=
  match a with
  | Some (String ch rest) => String ch rest
  | Some EmptyString => b
  | None => b
  end.

(** [const html = highlightedHtml || fallback] *)
Definition html (p : CodeBlockProps) : string :=
  js_or (highlightedHtml p) (fallback (code p)).

(** ** The instance *)

(** The DOM node behind [contentRef]; [scrollHeight] is the only member the
    component reads. *)
Record Element := mkElement { scrollHeight : Z }.

(** The only callback the component ever hands to [setTimeout]:
    [() => setCopied(false)]. *)
Inductive Callback := RevertCopied.

Record Timer := mkTimer { due : N; callback : Callback }.

Record Instance := mkInstance {
  props : CodeBlockProps;
  (* useState cells *)
  copied : bool;
  isCollapsed : bool;
  needsFolding : bool;
  contentHeight : Z;
  (* useRef cell: [None] is [contentRef.current === null] *)
  contentRef : option Element;
  (* the [html] recorded by the last run of the layout effect *)
  effectDeps : string;
  (* navigator.clipboard: the texts written so far, oldest first *)
  clipboard : list string;
  (* clock in milliseconds, and the timers not fired yet, oldest first *)
  now : N;
  timers : list Timer
}.

Definition setCopied (b : bool) (w : Instance) : Instance :=
  mkInstance (props w) b (isCollapsed w) (needsFolding w) (contentHeight w)
    (contentRef w) (effectDeps w) (clipboard w) (now w) (timers w).

Definition setIsCollapsed (b : bool) (w : Instance) : Instance :=
  mkInstance (props w) (copied w) b (needsFolding w) (contentHeight w)
    (contentRef w) (effectDeps w) (clipboard w) (now w) (timers w).

Definition setNeedsFolding (b : bool) (w : Instance) : Instance :=
  mkInstance (props w) (copied w) (isCollapsed w) b (contentHeight w)
    (contentRef w) (effectDeps w) (clipboard w) (now w) (timers w).

Definition setContentHeight (h : Z) (w : Instance) : Instance :=
  mkInstance (props w) (copied w) (isCollapsed w) (needsFolding w) h
    (contentRef w) (effectDeps w) (clipboard w) (now w) (timers w).

(** [navigator.clipboard.writeText(s)]; the promise it returns is dropped. *)
Definition writeText (s : string) (w : Instance) : Instance :=
  mkInstance (props w) (copied w) (isCollapsed w) (needsFolding w)
    (contentHeight w) (contentRef w) (effectDeps w) (clipboard w ++ [s])
    (now w) (timers w).

(** [setTimeout(cb, delay)]; the timer id it returns is dropped. *)
Definition setTimeout (cb : Callback) (delay : N) (w : Instance) : Instance :=
  mkInstance (props w) (copied w) (isCollapsed w) (needsFolding w)
    (contentHeight w) (contentRef w) (effectDeps w) (clipboard w) (now w)
    (timers w ++ [mkTimer (now w + delay) cb]).

(** ** The layout effect *)

(** Reading a member of [null] throws a [TypeError]. *)
Inductive TypeError := NullMember.

Definition Exc (A : Type) : Type := (TypeError + A)%type.

Definition ret {A : Type} (a : A) : Exc A := inr a.

Definition bind {A B : Type} (m : Exc A) (k : A -> Exc B) : Exc B :=
  match m with
  | inl e => inl e
  | inr a => k a
  end.

Notation "'let!' x ':=' m 'in' k" := (bind m (fun x => k))
  (at level 10, x name, m at level 100, k at level 200).

(** [contentRef.current.scrollHeight] *)
Definition readScrollHeight (r : option Element) : Exc Z :=
  match r with
  | Some el => ret (scrollHeight el)
  | None => inl NullMember
  end.

(** The body of [useLayoutEffect(() => { ... }, [html])]. *)
Definition layoutEffect (w : Instance) : Exc Instance :=
  match contentRef w with
  | Some _ =>
      let! h := readScrollHeight (contentRef w) in
      if (h >? FOLD_THRESHOLD + 50)%Z
      then ret (setContentHeight h (setNeedsFolding true w))
      else ret w
  | None => ret w
  end.

(** The commit phase runs the effect; [layoutEffect_returns] below shows that
    the second branch is never taken. *)
Definition commitLayoutEffect (w : Instance) : Instance :=
  match layoutEffect w with
  | inr w' => w'
  | inl _ => w
  end.

(** ** Mounting and re-rendering *)

(** The first render: every [useState] cell takes its initial value, the ref
    is attached to what the layout engine produced for the markup, and the
    effect runs with [html] as its dependency. *)
Definition initial (p : CodeBlockProps) (el : option Element) : Instance :=
  mkInstance p false true false 0%Z el (html p) [] 0%N [].

Definition mount (p : CodeBlockProps) (el : option Element) : Instance :=
  commitLayoutEffect (initial p el).

(** A later render of the same instance with the props [p] and the geometry
    [el] the layout engine produced for them. *)
Definition withRender (p : CodeBlockProps) (el : option Element) (d : string)
    (w : Instance) : Instance :=
  mkInstance p (copied w) (isCollapsed w) (needsFolding w) (contentHeight w)
    el d (clipboard w) (now w) (timers w).

Definition rerender (p : CodeBlockProps) (el : option Element) (w : Instance)
    : Instance :=
  if String.eqb (html p) (effectDeps w)
  then withRender p el (effectDeps w) w
  else commitLayoutEffect (withRender p el (html p) w).

(** ** What the render emits for the folding wrapper *)

(** [style={needsFolding ? { maxHeight: isCollapsed ? FOLD_THRESHOLD :
    contentHeight } : undefined}]; [None] is [undefined]. *)
Definition maxHeight (w : Instance) : option Z :=
  if needsFolding w
  then Some (if isCollapsed w then FOLD_THRESHOLD else contentHeight w)
  else None.

(** [needsFolding && isCollapsed && "fuwari-code-collapsed"] *)
Definition collapsedClass (w : Instance) : bool :=
  needsFolding w && isCollapsed w.

(** The expand button is rendered under [needsFolding && (...)] with
    [disabled={!isCollapsed}]. *)
Definition expandRendered (w : Instance) : bool := needsFolding w.

Definition expandDisabled (w : Instance) : bool := negb (isCollapsed w).

(** ** Handlers *)

(** [onClick={() => setIsCollapsed(false)}] *)
Definition handleExpand (w : Instance) : Instance := setIsCollapsed false w.

(** A click reaches the handler only when the button is in the tree and not
    disabled. *)
Definition clickExpand (w : Instance) : Instance :=
  if expandRendered w && negb (expandDisabled w) then handleExpand w else w.

(** [const handleCopy = () => { navigator.clipboard.writeText(code);
    setCopied(true); setTimeout(() => setCopied(false), 2000); }] *)
Definition handleCopy (w : Instance) : Instance :=
  setTimeout RevertCopied 2000 (setCopied true (writeText (code (props w)) w)).

(** ** The clock *)

Definition runCallback (cb : Callback) (w : Instance) : Instance :=
  match cb with
  | RevertCopied => setCopied false w
  end.

Definition expired (t : N) (tm : Timer) : bool := (due tm <=? t)%N.

Definition setClock (t : N) (ts : list Timer) (w : Instance) : Instance :=
  mkInstance (props w) (copied w) (isCollapsed w) (needsFolding w)
    (contentHeight w) (contentRef w) (effectDeps w) (clipboard w) t ts.

Definition fire (ts : list Timer) (w : Instance) : Instance :=
  fold_left (fun acc tm => runCallback (callback tm) acc) ts w.

(** [ms] milliseconds pass: the timers due by then fire, oldest first, and
    leave the list. *)
Definition elapse (ms : N) (w : Instance) : Instance :=
  let t := (now w + ms)%N in
  fire (filter (expired t) (timers w))
       (setClock t (filter (fun tm => negb (expired t tm)) (timers w)) w).

(** ** Events *)

Inductive Event :=
| ClickCopy
| ClickExpand
| Elapse (ms : N)
| Update (p : CodeBlockProps) (el : option Element).

Definition step (e : Event) (w : Instance) : Instance :=
  match e with
  | ClickCopy => handleCopy w
  | ClickExpand => clickExpand w
  | Elapse ms => elapse ms w
  | Update p el => rerender p el w
  end.

Definition run (evs : list Event) (w : Instance) : Instance :=
  fold_left (fun acc e => step e acc) evs w.

(** An event that leaves the displayed markup [m] as it is. *)
Definition keepsMarkup (m : string) (e : Event) : Prop :=
  match e with
  | Update p _ => html p = m
  | _ => True
  end.

(** ** The language badge *)

(** The values a property read of [LANGUAGE_MAP] can yield: a label of the
    table, or what the object inherits from [Object.prototype], a function
    or that prototype object itself. *)
Inductive JsValue :=
| JsString (s : string)
| JsFunction
| JsObject.

(** The own properties of the object literal, in source order. *)
Definition LANGUAGE_MAP : list (string * string) :=
  [ ("ts", "TypeScript"); ("typescript", "TypeScript");
    ("js", "JavaScript"); ("javascript", "JavaScript");
    ("jsx", "JSX"); ("tsx", "TSX");
    ("py", "Python"); ("python", "Python");
    ("rb", "Ruby"); ("ruby", "Ruby");
    ("go", "Go");
    ("rs", "Rust"); ("rust", "Rust");
    ("java", "Java"); ("cpp", "C++"); ("c", "C"); ("php", "PHP");
    ("css", "CSS"); ("html", "HTML"); ("json", "JSON"); ("yaml", "YAML");
    ("xml", "XML"); ("sql", "SQL"); ("sh", "sh"); ("bash", "bash");
    ("md", "Markdown"); ("text", "text"); ("txt", "text") ].

(** The properties every object literal inherits from [Object.prototype]:
    [__proto__] reads as the prototype object, the others are functions. *)
Definition OBJECT_PROTOTYPE : list (string * JsValue) :=
  [ ("constructor", JsFunction); ("__proto__", JsObject);
    ("__defineGetter__", JsFunction); ("__defineSetter__", JsFunction);
    ("__lookupGetter__", JsFunction); ("__lookupSetter__", JsFunction);
    ("hasOwnProperty", JsFunction); ("isPrototypeOf", JsFunction);
    ("propertyIsEnumerable", JsFunction); ("toLocaleString", JsFunction);
    ("toString", JsFunction); ("valueOf", JsFunction) ].

Fixpoint lookup {A : Type} (o : list (string * A)) (k : string) : option A :=
  match o with
  | [] => None
  | (k', v) :: rest => if String.eqb k k' then Some v else lookup rest k
  end.

(** [LANGUAGE_MAP[k]]: an own property first, then the prototype; [None] is
    [undefined]. *)
Definition getProperty (k : string) : option JsValue :=
  match lookup LANGUAGE_MAP k with
  | Some label => Some (JsString label)
  | None => lookup OBJECT_PROTOTYPE k
  end.

(** Truthiness of a property value: of these only the empty string is
    falsy. *)
Definition truthy (v : JsValue) : bool :=
  match v with
  | JsString EmptyString => false
  | _ => true
  end.

(** [String.prototype.toLowerCase] on the ASCII range, where it maps [A-Z]
    to [a-z] and leaves every other character alone.  Outside that range it
    follows the Unicode case tables, which this model does not have: the
    properties of the badge are stated for ASCII language strings. *)
Definition lowerChar (c : ascii) : ascii :=
  let n := nat_of_ascii c in
  if (65 <=? n)%nat && (n <=? 90)%nat then ascii_of_nat (n + 32) else c.

Fixpoint toLowerCase (s : string) : string :=
  match s with
  | EmptyString => EmptyString
  | String c rest => String (lowerChar c) (toLowerCase rest)
  end.

Fixpoint isAscii (s : string) : bool :=
  match s with
  | EmptyString => true
  | String c rest => (nat_of_ascii c <? 128)%nat && isAscii rest
  end.

(** [const displayLanguage = language
      ? LANGUAGE_MAP[language.toLowerCase()] || language.toLowerCase()
      : "text"]; [null] and the empty string are falsy. *)
Definition displayLanguage (lang : option string) : JsValue :=
  match lang with
  | Some (String c rest) =>
      match getProperty (toLowerCase (String c rest)) with
      | Some v =>
          if truthy v then v else JsString (toLowerCase (String c rest))
      | None => JsString (toLowerCase (String c rest))
      end
  | Some EmptyString => JsString "text"
  | None => JsString "text"
  end.

(** ** The clipboard log a sequence of events is expected to leave *)

(** The [code] of the props current at each click on the copy button, in
    order, starting from the props [p]. *)
Fixpoint copiedCodes (evs : list Event) (p : CodeBlockProps) : list string :=
  match evs with
  | [] => []
  | ClickCopy :: rest => code p :: copiedCodes rest p
  | Update p' _ :: rest => copiedCodes rest p'
  | _ :: rest => copiedCodes rest p
  end.

(** ** Invariants of the states an instance goes through *)

(** The fold cells: the block is expanded only if it was foldable, the
    recorded height is that of a measurement above the cutoff, or still the
    initial 0, and the effect has run for the markup of the current props. *)
Definition foldInvariant (w : Instance) : Prop :=
  (isCollapsed w = false -> needsFolding w = true)
  /\ (if needsFolding w
      then (contentHeight w > FOLD_THRESHOLD + 50)%Z
      else contentHeight w = 0%Z)
  /\ effectDeps w = html (props w).

(** The copy cells: every pending timer is due after now and within 2000 ms,
    and [copied] is true only while a timer is pending. *)
Definition timerInvariant (w : Instance) : Prop :=
  Forall (fun tm => (now w < due tm <= now w + 2000)%N) (timers w)
  /\ (copied w = true -> timers w <> []).

(** ** Sample inputs *)

(** An element the layout engine reports with the scroll height [h]. *)
Definition px (h : Z) : option Element := Some (mkElement h).

Definition newline : string := String "010"%char EmptyString.

(** Two snippets without highlighted markup, and one with. *)
Definition snippetA : CodeBlockProps :=
  mkProps ("a" ++ newline ++ "  b" ++ newline ++ "c ") (Some "py") None.

Definition snippetB : CodeBlockProps :=
  mkProps "let x = 1;" (Some "ts") None.

Definition snippetH : CodeBlockProps :=
  mkProps "x < y" None (Some "<pre><code>x &lt; y</code></pre>").

(** * Properties *)

(** ** Strings *)

Section StringFacts.

Lemma append_assoc (a b c : string) : (a ++ b) ++ c = a ++ (b ++ c).
Proof.
  induction a as [|ch a IH]; simpl; [reflexivity | now rewrite IH].
Qed.

Lemma length_append (a b : string) :
  String.length (a ++ b) = String.length a + String.length b.
Proof.
  induction a as [|ch a IH]; simpl; [reflexivity | now rewrite IH].
Qed.

Lemma substring_prefix (b c : string) :
  substring 0 (String.length b) (b ++ c) = b.
Proof.
  induction b as [|ch b IH]; simpl.
  - now destruct c.
  - now rewrite IH.
Qed.

(** The middle part of a concatenation is read back unchanged. *)
Lemma substring_middle (a b c : string) :
  substring (String.length a) (String.length b) (a ++ b ++ c) = b.
Proof.
  induction a as [|ch a IH]; simpl.
  - apply substring_prefix.
  - exact IH.
Qed.

Lemma fallback_length (c : string) :
  String.length (fallback c)
  = String.length fallback_open + String.length c
    + String.length fallback_close.
Proof.
  unfold fallback. rewrite !length_append. lia.
Qed.

Lemma fallback_differs (c : string) : fallback c <> c.
Proof.
  intros E. apply (f_equal String.length) in E.
  rewrite fallback_length in E.
  change (String.length fallback_close) with 13 in E. lia.
Qed.

End StringFacts.

(** ** The layout effect never throws *)

Lemma layoutEffect_attached (w : Instance) (el : Element) :
  contentRef w = Some el ->
  layoutEffect w
  = inr (if (scrollHeight el >? FOLD_THRESHOLD + 50)%Z
         then setContentHeight (scrollHeight el) (setNeedsFolding true w)
         else w).
Proof.
  intros E. unfold layoutEffect. rewrite E.
  unfold readScrollHeight, bind, ret.
  now destruct (scrollHeight el >? FOLD_THRESHOLD + 50)%Z.
Qed.

Lemma layoutEffect_detached (w : Instance) :
  contentRef w = None -> layoutEffect w = inr w.
Proof.
  intros E. unfold layoutEffect. now rewrite E.
Qed.

Lemma layoutEffect_returns (w : Instance) :
  layoutEffect w = inr (commitLayoutEffect w).
Proof.
  unfold commitLayoutEffect.
  destruct (contentRef w) as [el|] eqn:E.
  - now rewrite (layoutEffect_attached w el E).
  - now rewrite (layoutEffect_detached w E).
Qed.

Lemma commit_attached (w : Instance) (el : Element) :
  contentRef w = Some el ->
  commitLayoutEffect w
  = if (scrollHeight el >? FOLD_THRESHOLD + 50)%Z
    then setContentHeight (scrollHeight el) (setNeedsFolding true w)
    else w.
Proof.
  intros E. unfold commitLayoutEffect.
  now rewrite (layoutEffect_attached w el E).
Qed.

Lemma commit_detached (w : Instance) :
  contentRef w = None -> commitLayoutEffect w = w.
Proof.
  intros E. unfold commitLayoutEffect.
  now rewrite (layoutEffect_detached w E).
Qed.

(** Case analysis on the ref and on the comparison of the effect. *)
Ltac effect_cases w :=
  let el := fresh "el" in
  let E := fresh "Eref" in
  let C := fresh "Ecmp" in
  destruct (contentRef w) as [el|] eqn:E;
  [ rewrite (commit_attached w el E);
    destruct (scrollHeight el >? FOLD_THRESHOLD + 50)%Z eqn:C
  | rewrite (commit_detached w E) ].

(** ** What each operation leaves alone *)

Section Frames.

Lemma commit_isCollapsed (w : Instance) :
  isCollapsed (commitLayoutEffect w) = isCollapsed w.
Proof. effect_cases w; reflexivity. Qed.

Lemma commit_effectDeps (w : Instance) :
  effectDeps (commitLayoutEffect w) = effectDeps w.
Proof. effect_cases w; reflexivity. Qed.

Lemma commit_needsFolding_mono (w : Instance) :
  needsFolding w = true -> needsFolding (commitLayoutEffect w) = true.
Proof. intros H. effect_cases w; auto. Qed.

Lemma fire_frame (ts : list Timer) (w : Instance) :
  isCollapsed (fire ts w) = isCollapsed w
  /\ needsFolding (fire ts w) = needsFolding w
  /\ contentHeight (fire ts w) = contentHeight w
  /\ effectDeps (fire ts w) = effectDeps w
  /\ clipboard (fire ts w) = clipboard w
  /\ now (fire ts w) = now w
  /\ timers (fire ts w) = timers w.
Proof.
  revert w. induction ts as [|[d []] ts IH]; intros w; simpl.
  - repeat split.
  - exact (IH (setCopied false w)).
Qed.

(** Every timer of the component reverts [copied]. *)
Lemma fire_copied (ts : list Timer) (w : Instance) :
  copied (fire ts w) = match ts with [] => copied w | _ :: _ => false end.
Proof.
  revert w. induction ts as [|[d []] ts IH]; intros w; simpl.
  - reflexivity.
  - change (copied (fire ts (setCopied false w)) = false).
    rewrite IH. now destruct ts.
Qed.

Lemma elapse_frame (ms : N) (w : Instance) :
  isCollapsed (elapse ms w) = isCollapsed w
  /\ needsFolding (elapse ms w) = needsFolding w
  /\ contentHeight (elapse ms w) = contentHeight w
  /\ effectDeps (elapse ms w) = effectDeps w
  /\ clipboard (elapse ms w) = clipboard w.
Proof.
  unfold elapse.
  destruct (fire_frame (filter (expired (now w + ms)) (timers w))
              (setClock (now w + ms)
                 (filter (fun tm => negb (expired (now w + ms) tm))
                    (timers w)) w)) as (A & B & C & D & E & _).
  now rewrite A, B, C, D, E.
Qed.

Lemma elapse_now (ms : N) (w : Instance) :
  now (elapse ms w) = (now w + ms)%N.
Proof.
  unfold elapse.
  destruct (fire_frame (filter (expired (now w + ms)) (timers w))
              (setClock (now w + ms)
                 (filter (fun tm => negb (expired (now w + ms) tm))
                    (timers w)) w)) as (_ & _ & _ & _ & _ & A & _).
  now rewrite A.
Qed.

(** After [ms] milliseconds the timers still pending are exactly those not
    due yet: none is removed in any other way. *)
Lemma elapse_timers (ms : N) (w : Instance) :
  timers (elapse ms w)
  = filter (fun tm => negb (expired (now w + ms) tm)) (timers w).
Proof.
  unfold elapse.
  destruct (fire_frame (filter (expired (now w + ms)) (timers w))
              (setClock (now w + ms)
                 (filter (fun tm => negb (expired (now w + ms) tm))
                    (timers w)) w)) as (_ & _ & _ & _ & _ & _ & A).
  now rewrite A.
Qed.

(** [copied] after [ms] milliseconds: reverted as soon as one pending timer
    has come due, untouched otherwise. *)
Lemma elapse_copied (ms : N) (w : Instance) :
  copied (elapse ms w)
  = if existsb (expired (now w + ms)) (timers w) then false else copied w.
Proof.
  unfold elapse. rewrite fire_copied.
  induction (timers w) as [|tm ts IH]; simpl.
  - reflexivity.
  - destruct (expired (now w + ms) tm); simpl; [reflexivity | exact IH].
Qed.

End Frames.

(** ** The collapse flag never comes back *)

Lemma step_isCollapsed_false (e : Event) (w : Instance) :
  isCollapsed w = false -> isCollapsed (step e w) = false.
Proof.
  intros H. destruct e as [| |ms|p el]; simpl.
  - exact H.
  - unfold clickExpand. now destruct (expandRendered w && negb (expandDisabled w)).
  - destruct (elapse_frame ms w) as (A & _). now rewrite A.
  - unfold rerender. destruct (html p =? effectDeps w)%string.
    + exact H.
    + now rewrite commit_isCollapsed.
Qed.

Lemma run_isCollapsed_false (evs : list Event) (w : Instance) :
  isCollapsed w = false -> isCollapsed (run evs w) = false.
Proof.
  revert w. induction evs as [|e evs IH]; intros w H; simpl.
  - exact H.
  - apply IH, step_isCollapsed_false, H.
Qed.

(** ** Folding, once enabled, stays enabled *)

Lemma step_needsFolding_mono (e : Event) (w : Instance) :
  needsFolding w = true -> needsFolding (step e w) = true.
Proof.
  intros H. destruct e as [| |ms|p el]; simpl.
  - exact H.
  - unfold clickExpand. now destruct (expandRendered w && negb (expandDisabled w)).
  - destruct (elapse_frame ms w) as (_ & A & _). now rewrite A.
  - unfold rerender. destruct (html p =? effectDeps w)%string.
    + exact H.
    + now apply commit_needsFolding_mono.
Qed.

(** ** Without a change of markup the effect does not run again *)

Lemma step_keepsMarkup (m : string) (e : Event) (w : Instance) :
  keepsMarkup m e -> effectDeps w = m ->
  effectDeps (step e w) = m
  /\ needsFolding (step e w) = needsFolding w
  /\ contentHeight (step e w) = contentHeight w.
Proof.
  intros K D. destruct e as [| |ms|p el]; simpl in *.
  - now repeat split.
  - unfold clickExpand.
    now destruct (expandRendered w && negb (expandDisabled w)).
  - destruct (elapse_frame ms w) as (_ & A & B & C & _).
    now rewrite A, B, C.
  - unfold rerender. rewrite K, D, String.eqb_refl. now repeat split.
Qed.

Lemma run_keepsMarkup (m : string) (evs : list Event) (w : Instance) :
  Forall (keepsMarkup m) evs -> effectDeps w = m ->
  needsFolding (run evs w) = needsFolding w
  /\ contentHeight (run evs w) = contentHeight w.
Proof.
  intros F. revert w. induction F as [|e evs K F IH]; intros w D; simpl.
  - now split.
  - destruct (step_keepsMarkup m e w K D) as (D' & A & B).
    destruct (IH (step e w) D') as (A' & B').
    now rewrite A', B', A, B.
Qed.

Lemma mount_effectDeps (p : CodeBlockProps) (el : option Element) :
  effectDeps (mount p el) = html p.
Proof.
  unfold mount. now rewrite commit_effectDeps.
Qed.

(** ** Props and environment after a mount or a re-render *)

Lemma commit_env (w : Instance) :
  props (commitLayoutEffect w) = props w
  /\ copied (commitLayoutEffect w) = copied w
  /\ clipboard (commitLayoutEffect w) = clipboard w
  /\ now (commitLayoutEffect w) = now w
  /\ timers (commitLayoutEffect w) = timers w.
Proof. effect_cases w; repeat split. Qed.

Lemma mount_env (p : CodeBlockProps) (el : option Element) :
  props (mount p el) = p
  /\ copied (mount p el) = false
  /\ isCollapsed (mount p el) = true
  /\ clipboard (mount p el) = []
  /\ now (mount p el) = 0%N
  /\ timers (mount p el) = [].
Proof.
  unfold mount.
  destruct (commit_env (initial p el)) as (A & B & C & D & E).
  rewrite A, B, C, D, E, commit_isCollapsed. repeat split.
Qed.

Lemma rerender_env (p : CodeBlockProps) (el : option Element) (w : Instance) :
  props (rerender p el w) = p
  /\ clipboard (rerender p el w) = clipboard w
  /\ isCollapsed (rerender p el w) = isCollapsed w.
Proof.
  unfold rerender. destruct (html p =? effectDeps w)%string.
  - repeat split.
  - destruct (commit_env (withRender p el (html p) w)) as (A & _ & C & _).
    rewrite A, C, commit_isCollapsed. repeat split.
Qed.

Lemma rerender_changed (p : CodeBlockProps) (el : option Element)
    (w : Instance) :
  html p <> effectDeps w ->
  rerender p el w = commitLayoutEffect (withRender p el (html p) w).
Proof.
  intros N. unfold rerender.
  destruct (String.eqb_spec (html p) (effectDeps w)) as [E|_];
    [contradiction | reflexivity].
Qed.

Lemma mount_measured (p : CodeBlockProps) (h : Z) :
  mount p (px h)
  = if (h >? FOLD_THRESHOLD + 50)%Z
    then setContentHeight h (setNeedsFolding true (initial p (px h)))
    else initial p (px h).
Proof.
  unfold mount.
  exact (commit_attached (initial p (px h)) (mkElement h) eq_refl).
Qed.

Lemma over_cutoff (h : Z) :
  (h > 450)%Z -> (h >? FOLD_THRESHOLD + 50)%Z = true.
Proof. unfold FOLD_THRESHOLD. lia. Qed.

Lemma within_cutoff (h : Z) :
  (h <= 450)%Z -> (h >? FOLD_THRESHOLD + 50)%Z = false.
Proof. unfold FOLD_THRESHOLD. lia. Qed.

(** * The fold controller *)

(** C1, as the specification words it, fails on an instance that has already
    measured taller content.  With [snippetA] measured at 1000 and then
    replaced by [snippetB] measured at 420 (not above 450), [needsFolding] is
    still true and the wrapper is clamped to 400; and when the block had been
    expanded before, a measurement above 450 leaves it expanded instead of
    entering the collapsed state. *)
Lemma short_content_after_tall_is_clamped :
  let w := rerender snippetB (px 420) (mount snippetA (px 1000)) in
  let v := rerender snippetB (px 1000)
             (clickExpand (mount snippetA (px 1000))) in
  html snippetB <> html snippetA
  /\ (420 <= 450)%Z
  /\ ~ (needsFolding w = false /\ maxHeight w = None)
  /\ maxHeight w = Some 400%Z
  /\ (1000 > 450)%Z
  /\ ~ (collapsedClass v = true).
Proof.
  assert (N : html snippetB <> html snippetA)
    by (apply String.eqb_neq; reflexivity).
  cbv zeta. rewrite !rerender_changed
    by (rewrite !mount_effectDeps; try exact N;
        unfold clickExpand;
        destruct (expandRendered _ && negb (expandDisabled _));
        unfold handleExpand; simpl; rewrite ?mount_effectDeps; exact N).
  repeat split; try lia; try exact N.
  - intros [A _]. vm_compute in A. discriminate A.
  - vm_compute. intros A. discriminate A.
Qed.

(** C1 (amended): a measurement of height [H] above 450 sets [needsFolding]
    and records [H] as the content height, leaving [isCollapsed] as it was,
    so that a block not expanded before enters the collapsed foldable state
    with max-height 400; a measurement of at most 450 taken while
    [needsFolding] is false leaves it false and no clamp is emitted whatever
    the collapse flag.  At the first measurement, after a mount, both cases
    apply, and below the cutoff the wrapper stays unclamped for as long as the
    markup does not change. *)
Theorem measurement_decides_folding (H : Z) :
  (forall w : Instance,
      contentRef w = px H ->
      exists w',
        layoutEffect w = inr w'
        /\ ((H > 450)%Z ->
            needsFolding w' = true
            /\ contentHeight w' = H
            /\ isCollapsed w' = isCollapsed w
            /\ (isCollapsed w = true ->
                collapsedClass w' = true /\ maxHeight w' = Some 400%Z))
        /\ ((H <= 450)%Z ->
            needsFolding w = false ->
            needsFolding w' = false
            /\ forall b, maxHeight (setIsCollapsed b w') = None))
  /\ (forall p : CodeBlockProps,
         ((H > 450)%Z ->
          needsFolding (mount p (px H)) = true
          /\ contentHeight (mount p (px H)) = H
          /\ collapsedClass (mount p (px H)) = true
          /\ maxHeight (mount p (px H)) = Some 400%Z)
         /\ ((H <= 450)%Z ->
             forall evs, Forall (keepsMarkup (html p)) evs ->
               needsFolding (run evs (mount p (px H))) = false
               /\ forall b,
                   maxHeight (setIsCollapsed b (run evs (mount p (px H))))
                   = None)).
Proof.
  split.
  - intros w R. eexists. split; [apply (layoutEffect_attached w _ R) |].
    cbn [scrollHeight]. split.
    + intros G. rewrite (over_cutoff H G). cbn.
      refine (conj eq_refl (conj eq_refl (conj eq_refl _))).
      intros C. unfold collapsedClass, maxHeight. cbn.
      now rewrite C.
    + intros G F. rewrite (within_cutoff H G). split; [exact F |].
      intros b. unfold maxHeight. cbn. now rewrite F.
  - intros p. rewrite mount_measured. split.
    + intros G. rewrite (over_cutoff H G). repeat split.
    + intros G evs K. rewrite (within_cutoff H G).
      destruct (run_keepsMarkup (html p) evs (initial p (px H)) K eq_refl)
        as (A & _).
      split; [now rewrite A |].
      intros b. unfold maxHeight. cbn. now rewrite A.
Qed.

Lemma measurement_decides_folding_witness :
  (needsFolding (mount snippetA (px 1000)) = true
   /\ maxHeight (mount snippetA (px 1000)) = Some 400%Z)
  /\ maxHeight (run [ClickExpand; ClickCopy; Elapse 2500]
                  (mount snippetA (px 450))) = None.
Proof.
  split.
  - destruct (measurement_decides_folding 1000) as [_ M].
    destruct (M snippetA) as [T _].
    destruct T as (A & _ & _ & D); [lia | split; assumption].
  - destruct (measurement_decides_folding 450) as [_ M].
    destruct (M snippetA) as [_ T].
    destruct (T ltac:(lia) [ClickExpand; ClickCopy; Elapse 2500]) as [F _].
    + repeat constructor.
    + unfold maxHeight. now rewrite F.
Defined.

(** C2, as the specification words it, fails: a change of markup does not
    reset the fold state.  After [snippetA] was measured at 1000 and
    expanded, replacing it by [snippetB] leaves [isCollapsed] false; and
    the state after the change depends on the history, since the same change
    without the expand leaves [isCollapsed] true. *)
Lemma content_change_keeps_expanded :
  let w := rerender snippetB (px 1000)
             (clickExpand (mount snippetA (px 1000))) in
  let v := rerender snippetB (px 1000) (mount snippetA (px 1000)) in
  html snippetB <> html snippetA
  /\ ~ (isCollapsed w = true)
  /\ isCollapsed v = true.
Proof.
  cbv zeta. split; [apply String.eqb_neq; reflexivity |].
  destruct (rerender_env snippetB (px 1000)
              (clickExpand (mount snippetA (px 1000)))) as (_ & _ & A).
  destruct (rerender_env snippetB (px 1000) (mount snippetA (px 1000)))
    as (_ & _ & B).
  rewrite A, B. split; [| reflexivity].
  intros C. vm_compute in C. discriminate C.
Qed.

(** C2 (amended): a change of the markup runs the measurement again on the
    new content but resets nothing: [isCollapsed] keeps the value it had, so
    a block that was expanded stays expanded; a new height above 450 sets
    [needsFolding] and records the new height; a new height of at most 450
    leaves [needsFolding] false when it was false.  The state with
    [isCollapsed] true and [needsFolding] false that precedes the first
    measurement is that of a newly mounted instance only. *)
Theorem content_change_keeps_collapse_flag (w : Instance)
    (p : CodeBlockProps) (el : option Element) :
  html p <> effectDeps w ->
  layoutEffect (withRender p el (html p) w) = inr (rerender p el w)
  /\ isCollapsed (rerender p el w) = isCollapsed w
  /\ effectDeps (rerender p el w) = html p
  /\ (forall H, el = px H -> (H > 450)%Z ->
        needsFolding (rerender p el w) = true
        /\ contentHeight (rerender p el w) = H)
  /\ (forall H, el = px H -> (H <= 450)%Z -> needsFolding w = false ->
        needsFolding (rerender p el w) = false)
  /\ isCollapsed (initial p el) = true
  /\ needsFolding (initial p el) = false.
Proof.
  intros N. rewrite (rerender_changed p el w N).
  split; [apply layoutEffect_returns |].
  split; [now rewrite commit_isCollapsed |].
  split; [now rewrite commit_effectDeps |].
  split; [| split; [| split; reflexivity]].
  - intros H -> G.
    rewrite (commit_attached (withRender p (px H) (html p) w)
               (mkElement H) eq_refl).
    cbn [scrollHeight]. rewrite (over_cutoff H G). split; reflexivity.
  - intros H -> G F.
    rewrite (commit_attached (withRender p (px H) (html p) w)
               (mkElement H) eq_refl).
    cbn [scrollHeight]. rewrite (within_cutoff H G). exact F.
Qed.

Lemma content_change_keeps_collapse_flag_witness :
  isCollapsed (rerender snippetB (px 1000)
                 (clickExpand (mount snippetA (px 1000)))) = false
  /\ contentHeight (rerender snippetB (px 700) (mount snippetA (px 1000)))
     = 700%Z.
Proof.
  split.
  - destruct (content_change_keeps_collapse_flag
                (clickExpand (mount snippetA (px 1000))) snippetB (px 1000))
      as (_ & A & _).
    + apply String.eqb_neq. reflexivity.
    + rewrite A. reflexivity.
  - destruct (content_change_keeps_collapse_flag
                (mount snippetA (px 1000)) snippetB (px 700))
      as (_ & _ & _ & A & _).
    + apply String.eqb_neq. reflexivity.
    + destruct (A 700%Z eq_refl ltac:(lia)) as [_ B]. exact B.
Defined.

(** C4: the max-height emitted for the code region is [undefined] when
    [needsFolding] is false, the threshold 400 when [needsFolding] and
    [isCollapsed] are true, and the recorded content height when
    [needsFolding] is true and [isCollapsed] is false, in every state.  For a
    block measured at 1000 the collapsed view has max-height 400 and the
    expanded one 1000. *)
Theorem maxHeight_by_fold_state (w : Instance) (p : CodeBlockProps) :
  maxHeight w
  = match needsFolding w, isCollapsed w with
    | false, _ => None
    | true, true => Some 400%Z
    | true, false => Some (contentHeight w)
    end
  /\ maxHeight (mount p (px 1000)) = Some 400%Z
  /\ maxHeight (step ClickExpand (mount p (px 1000))) = Some 1000%Z.
Proof.
  split.
  - unfold maxHeight.
    destruct (needsFolding w), (isCollapsed w); reflexivity.
  - rewrite mount_measured. split; reflexivity.
Qed.

(** C5: on a foldable, collapsed block one expand moves the max-height from
    400 to the measured height (the height [H] of the measurement, for a
    block mounted with [H] above 450); a second expand, whether as a click on the
    now disabled button or as a direct call of the handler, changes nothing;
    and no sequence of operations of the component (copy, expand, passing
    time, re-render with any props and geometry) makes [isCollapsed] true
    again. *)
Theorem expand_is_idempotent_and_terminal (w : Instance) :
  needsFolding w = true ->
  isCollapsed w = true ->
  maxHeight w = Some 400%Z
  /\ maxHeight (clickExpand w) = Some (contentHeight w)
  /\ clickExpand (clickExpand w) = clickExpand w
  /\ handleExpand (clickExpand w) = clickExpand w
  /\ expandDisabled (clickExpand w) = true
  /\ (forall evs,
        isCollapsed (run evs (clickExpand w)) = false
        /\ collapsedClass (run evs (clickExpand w)) = false)
  /\ (forall p H, (H > 450)%Z ->
        maxHeight (mount p (px H)) = Some 400%Z
        /\ maxHeight (clickExpand (mount p (px H))) = Some H).
Proof.
  intros F C.
  assert (E : clickExpand w = handleExpand w).
  { unfold clickExpand, expandRendered, expandDisabled. now rewrite F, C. }
  rewrite E.
  split; [unfold maxHeight; now rewrite F, C |].
  split; [unfold maxHeight; cbn; now rewrite F |].
  split.
  { unfold clickExpand, expandRendered, expandDisabled. cbn.
    now rewrite andb_false_r. }
  split; [reflexivity |].
  split; [reflexivity |].
  split.
  - intros evs.
    assert (R : isCollapsed (run evs (handleExpand w)) = false)
      by (apply run_isCollapsed_false; reflexivity).
    split; [exact R |].
    unfold collapsedClass. rewrite R. apply andb_false_r.
  - intros p H G. rewrite mount_measured, (over_cutoff H G).
    split; reflexivity.
Qed.

Lemma expand_is_idempotent_and_terminal_witness :
  maxHeight (clickExpand (mount snippetA (px 1000)))
  = Some (contentHeight (mount snippetA (px 1000)))
  /\ isCollapsed
       (run [ClickExpand; Update snippetB (px 2000); ClickCopy; Elapse 3000]
          (clickExpand (mount snippetA (px 1000)))) = false.
Proof.
  destruct (expand_is_idempotent_and_terminal (mount snippetA (px 1000)))
    as (_ & A & _ & _ & _ & B & _).
  - reflexivity.
  - reflexivity.
  - split; [exact A |].
    exact (proj1 (B [ClickExpand; Update snippetB (px 2000); ClickCopy;
                     Elapse 3000])).
Defined.

(** C6: in the state reached from any state by any sequence of operations,
    and so in every state reached from a mount, a false [needsFolding] means
    that no max-height is emitted, whatever the value of [isCollapsed]. *)
Theorem no_folding_no_clamp (w : Instance) (evs : list Event) :
  needsFolding (run evs w) = false ->
  maxHeight (run evs w) = None
  /\ forall b, maxHeight (setIsCollapsed b (run evs w)) = None.
Proof.
  intros F. unfold maxHeight. cbn. now rewrite F.
Qed.

Lemma no_folding_no_clamp_witness :
  maxHeight (run [ClickCopy; Update snippetB (px 300); ClickExpand]
               (mount snippetA (px 120))) = None.
Proof.
  apply (no_folding_no_clamp (mount snippetA (px 120))
           [ClickCopy; Update snippetB (px 300); ClickExpand]).
  reflexivity.
Defined.

(** C9: when the ref is null the effect returns without throwing and leaves
    every cell as it was, so that a mount with a detached region stays in the
    initial state with [needsFolding] false, height 0 and no clamp; the next
    render whose markup differs runs the effect again, and with the region
    attached by then the instance is in the state a mount of the new content
    would have produced. *)
Theorem detached_measurement_is_noop (w : Instance) :
  contentRef w = None ->
  layoutEffect w = inr w
  /\ commitLayoutEffect w = w
  /\ (forall p, mount p None = initial p None)
  /\ (forall p el, html p <> effectDeps w ->
        layoutEffect (withRender p el (html p) w) = inr (rerender p el w))
  /\ (forall p q H, html q <> html p ->
        rerender q (px H) (mount p None) = mount q (px H)).
Proof.
  intros R.
  split; [exact (layoutEffect_detached w R) |].
  split; [exact (commit_detached w R) |].
  split; [intros p; exact (commit_detached (initial p None) eq_refl) |].
  split.
  - intros p el N. rewrite (rerender_changed p el w N).
    apply layoutEffect_returns.
  - intros p q H N.
    rewrite rerender_changed by (rewrite mount_effectDeps; exact N).
    assert (M : mount p None = initial p None)
      by exact (commit_detached (initial p None) eq_refl).
    rewrite M. reflexivity.
Qed.

Lemma detached_measurement_is_noop_witness :
  layoutEffect (initial snippetA None) = inr (initial snippetA None)
  /\ needsFolding (rerender snippetB (px 900) (mount snippetA None)) = true.
Proof.
  destruct (detached_measurement_is_noop (initial snippetA None) eq_refl)
    as (A & _ & _ & _ & B).
  split; [exact A |].
  rewrite (B snippetA snippetB 900%Z).
  - reflexivity.
  - apply String.eqb_neq. reflexivity.
Defined.

(** * The copy affordance *)

Lemma handleCopy_effect (w : Instance) :
  handleCopy w
  = mkInstance (props w) true (isCollapsed w) (needsFolding w)
      (contentHeight w) (contentRef w) (effectDeps w)
      (clipboard w ++ [code (props w)]) (now w)
      (timers w ++ [mkTimer (now w + 2000) RevertCopied]).
Proof. reflexivity. Qed.

Lemma expired_new_timer (t ms : N) :
  expired (t + ms) (mkTimer (t + 2000) RevertCopied) = (2000 <=? ms)%N.
Proof.
  unfold expired. cbn [due].
  destruct (N.leb_spec (t + 2000) (t + ms)), (N.leb_spec 2000 ms);
    try reflexivity; lia.
Qed.

(** C3, as the specification words it, fails: the handler never cancels a
    timer.  A copy at time 0 and a second one at time 1000 leave two timers
    pending, and the first of them reverts [copied] at time 2000, only
    1000 ms after the last invocation. *)
Lemma second_copy_stacks_timers :
  let w1 := handleCopy (mount snippetA (px 100)) in
  let w2 := handleCopy (elapse 1000 w1) in
  let w3 := elapse 1000 w2 in
  now w2 = 1000%N
  /\ ~ (List.length (timers w2) <= 1)
  /\ List.length (timers w2) = 2
  /\ now w3 = 2000%N
  /\ (now w3 < now w2 + 2000)%N
  /\ ~ (copied w3 = true).
Proof.
  cbv zeta. vm_compute. repeat split; try lia; discriminate.
Qed.

(** C3 (amended): a copy sets [copied] synchronously and adds one timer,
    due 2000 ms later, behind the timers already pending, none of which it
    cancels: timers stack.  [copied] is then true after [ms] milliseconds
    exactly when [ms] is below 2000 and no timer that was pending before is
    due by then; in particular a copy made with no timer pending keeps
    [copied] true for 2000 ms, and [copied] is false 2000 ms after any
    copy unless another copy came in between. *)
Theorem copy_stacks_revert_timers (w : Instance) :
  copied (handleCopy w) = true
  /\ timers (handleCopy w)
     = (timers w ++ [mkTimer (now w + 2000) RevertCopied])%list
  /\ List.length (timers (handleCopy w)) = S (List.length (timers w))
  /\ (forall ms,
        copied (elapse ms (handleCopy w))
        = negb (existsb (expired (now w + ms)) (timers w))
          && (ms <? 2000)%N)
  /\ (forall ms, timers w = [] -> (ms < 2000)%N ->
        copied (elapse ms (handleCopy w)) = true)
  /\ (forall ms, (2000 <= ms)%N ->
        copied (elapse ms (handleCopy w)) = false).
Proof.
  assert (G : forall ms,
             copied (elapse ms (handleCopy w))
             = negb (existsb (expired (now w + ms)) (timers w))
               && (ms <? 2000)%N).
  { intros ms. rewrite elapse_copied, handleCopy_effect.
    cbn [now timers copied].
    rewrite existsb_app. cbn [existsb]. rewrite expired_new_timer, orb_false_r.
    destruct (existsb (expired (now w + ms)) (timers w)); [reflexivity |].
    cbn. destruct (N.leb_spec 2000 ms), (N.ltb_spec ms 2000);
      try reflexivity; lia. }
  split; [reflexivity |].
  split; [reflexivity |].
  split.
  { rewrite handleCopy_effect. cbn [timers].
    rewrite length_app. cbn. lia. }
  split; [exact G |].
  split.
  - intros ms E L. rewrite G, E. cbn.
    now apply N.ltb_lt.
  - intros ms L. rewrite G.
    replace (ms <? 2000)%N with false; [apply andb_false_r |].
    symmetry. now apply N.ltb_ge.
Qed.

Lemma copy_stacks_revert_timers_witness :
  copied (elapse 1999 (handleCopy (mount snippetA (px 100)))) = true
  /\ copied (elapse 2000 (handleCopy (mount snippetA (px 100)))) = false.
Proof.
  destruct (copy_stacks_revert_timers (mount snippetA (px 100)))
    as (_ & _ & _ & _ & A & B).
  split.
  - apply A; [reflexivity | reflexivity].
  - apply B. discriminate.
Defined.

(** C8: a copy appends to the clipboard log exactly the [code] of the
    current props, whether invoked directly or by a click, after a mount or
    after a re-render with new props; the markup plays no part, also when it
    differs from the source text, as the fallback markup always does. *)
Theorem copy_writes_raw_code (w : Instance) :
  clipboard (handleCopy w) = (clipboard w ++ [code (props w)])%list
  /\ clipboard (step ClickCopy w) = (clipboard w ++ [code (props w)])%list
  /\ (forall p el, clipboard (handleCopy (mount p el)) = [code p])
  /\ (forall p el,
        clipboard (handleCopy (rerender p el w))
        = (clipboard w ++ [code p])%list)
  /\ (forall c lang, html (mkProps c lang None) <> c)
  /\ html snippetH <> code snippetH
  /\ clipboard (handleCopy (mount snippetH (px 40))) = ["x < y"].
Proof.
  split; [reflexivity |].
  split; [reflexivity |].
  split.
  { intros p el. rewrite handleCopy_effect. cbn [clipboard].
    destruct (mount_env p el) as (A & _ & _ & B & _). now rewrite A, B. }
  split.
  { intros p el. rewrite handleCopy_effect. cbn [clipboard].
    destruct (rerender_env p el w) as (A & B & _). now rewrite A, B. }
  split; [intros c lang; apply fallback_differs |].
  split; [apply String.eqb_neq; reflexivity | reflexivity].
Qed.

(** * The render input adapter *)

(** C7: the displayed markup depends on [code] and [highlightedHtml] only;
    it is [highlightedHtml] itself when that is a non-empty string, and
    otherwise one [pre] element, opened by the fixed opening text and closed
    by the fixed closing text, around the code text, which is read back from
    it character for character. *)
Theorem render_input_adapter (p : CodeBlockProps) :
  (forall m, highlightedHtml p = Some m -> m <> EmptyString -> html p = m)
  /\ (highlightedHtml p = None \/ highlightedHtml p = Some EmptyString ->
      html p = fallback_open ++ code p ++ fallback_close
      /\ substring (String.length fallback_open) (String.length (code p))
           (html p) = code p
      /\ String.length (html p)
         = String.length fallback_open + String.length (code p)
           + String.length fallback_close)
  /\ (forall q, code q = code p -> highlightedHtml q = highlightedHtml p ->
        html q = html p)
  /\ String.prefix "<pre " fallback_open = true
  /\ fallback_close = "</code></pre>".
Proof.
  split.
  { intros m E N. unfold html. rewrite E.
    destruct m; [contradiction | reflexivity]. }
  split.
  { intros E.
    assert (F : html p = fallback (code p))
      by (unfold html; destruct E as [-> | ->]; reflexivity).
    rewrite F. split; [reflexivity |].
    split; [apply substring_middle | apply fallback_length]. }
  split.
  { intros q C E. unfold html. now rewrite C, E. }
  split; reflexivity.
Qed.

Lemma render_input_adapter_witness :
  html snippetH = "<pre><code>x &lt; y</code></pre>"
  /\ substring (String.length fallback_open) (String.length (code snippetA))
       (html snippetA) = "a" ++ newline ++ "  b" ++ newline ++ "c ".
Proof.
  split.
  - apply (proj1 (render_input_adapter snippetH) _ eq_refl). discriminate.
  - apply (proj1 (proj2 (render_input_adapter snippetA))). left. reflexivity.
Defined.

(** C10: the fallback markup is the fixed opening text, the code and the
    fixed closing text put end to end; no character of the code is escaped
    or changed, so the code is read back from the markup as it was given,
    and code that holds markup, such as a closing [code] tag followed by a
    [script] element, stands in the displayed markup as it is. *)
Theorem fallback_is_raw_concatenation (c : string) (lang : option string) :
  fallback c = fallback_open ++ c ++ fallback_close
  /\ html (mkProps c lang None) = fallback c
  /\ substring (String.length fallback_open) (String.length c) (fallback c)
     = c
  /\ String.length (fallback c)
     = String.length fallback_open + String.length c
       + String.length fallback_close
  /\ fallback_open
     = "<pre class=" ++ dquote
       ++ "shiki font-mono text-sm leading-relaxed whitespace-pre-wrap text-(--fuwari-btn-content) bg-transparent! p-0 m-0 border-0"
       ++ dquote ++ "><code>"
  /\ fallback_close = "</code></pre>"
  /\ html (mkProps "</code><script>alert(1)</script>" lang None)
     = fallback_open ++ "</code><script>alert(1)</script></code></pre>".
Proof.
  split; [reflexivity |].
  split; [reflexivity |].
  split; [apply substring_middle |].
  split; [apply fallback_length |].
  repeat split.
Qed.

(** * Further properties of the fold controller *)

Lemma run_invariant (P : Instance -> Prop) :
  (forall e w, P w -> P (step e w)) ->
  forall evs w, P w -> P (run evs w).
Proof.
  intros S evs. induction evs as [|e evs IH]; intros w H; simpl.
  - exact H.
  - apply IH, S, H.
Qed.

Lemma fire_props (ts : list Timer) (w : Instance) :
  props (fire ts w) = props w /\ contentRef (fire ts w) = contentRef w.
Proof.
  revert w. induction ts as [|[d []] ts IH]; intros w; simpl.
  - split; reflexivity.
  - exact (IH (setCopied false w)).
Qed.

Lemma elapse_props (ms : N) (w : Instance) :
  props (elapse ms w) = props w /\ contentRef (elapse ms w) = contentRef w.
Proof.
  unfold elapse.
  destruct (fire_props (filter (expired (now w + ms)) (timers w))
              (setClock (now w + ms)
                 (filter (fun tm => negb (expired (now w + ms) tm))
                    (timers w)) w)) as (A & B).
  now rewrite A, B.
Qed.

(** The fold cells after one event. *)
Lemma step_foldInvariant (e : Event) (w : Instance) :
  foldInvariant w -> foldInvariant (step e w).
Proof.
  intros (A & B & D). destruct e as [| |ms|p el]; simpl.
  - repeat split; assumption.
  - unfold clickExpand, expandRendered.
    destruct (needsFolding w) eqn:F; cbn [andb].
    + destruct (negb (expandDisabled w)).
      * unfold foldInvariant, handleExpand. cbn. rewrite F.
        repeat split; assumption.
      * unfold foldInvariant. rewrite F.
        repeat split; assumption.
    + unfold foldInvariant. rewrite F.
      repeat split; assumption.
  - destruct (elapse_frame ms w) as (E1 & E2 & E3 & E4 & _).
    destruct (elapse_props ms w) as (E5 & _).
    unfold foldInvariant. rewrite E1, E2, E3, E4, E5.
    repeat split; assumption.
  - unfold rerender.
    destruct (String.eqb_spec (html p) (effectDeps w)) as [E|N].
    + unfold foldInvariant. cbn. repeat split; try assumption.
      now symmetry.
    + effect_cases (withRender p el (html p) w).
      * unfold foldInvariant. cbn. repeat split.
        apply Z.gtb_lt in Ecmp. unfold FOLD_THRESHOLD in *. lia.
      * unfold foldInvariant. cbn. repeat split; assumption.
      * unfold foldInvariant. cbn. repeat split; assumption.
Qed.

Lemma mount_foldInvariant (p : CodeBlockProps) (el : option Element) :
  foldInvariant (mount p el).
Proof.
  unfold mount. effect_cases (initial p el).
  - unfold foldInvariant. cbn. repeat split; try congruence.
    apply Z.gtb_lt in Ecmp. unfold FOLD_THRESHOLD in *. lia.
  - unfold foldInvariant. cbn. repeat split; congruence.
  - unfold foldInvariant. cbn. repeat split; congruence.
Qed.

Lemma reachable_foldInvariant (p : CodeBlockProps) (el : option Element)
    (evs : list Event) :
  foldInvariant (run evs (mount p el)).
Proof.
  apply run_invariant; [exact step_foldInvariant |].
  apply mount_foldInvariant.
Qed.

(** X1: once a measurement has enabled folding, no sequence of events of the
    instance (copy, expand, passing time, re-render with any props and any
    geometry) disables it again: the wrapper keeps a max-height. *)
Theorem needsFolding_never_reverts (w : Instance) (evs : list Event) :
  needsFolding w = true ->
  needsFolding (run evs w) = true
  /\ exists h, maxHeight (run evs w) = Some h.
Proof.
  intros F.
  assert (G : needsFolding (run evs w) = true).
  { revert F. apply (run_invariant (fun v => needsFolding v = true)).
    intros e v. apply step_needsFolding_mono. }
  split; [exact G |].
  unfold maxHeight. rewrite G. eexists. reflexivity.
Qed.

Lemma needsFolding_never_reverts_witness :
  needsFolding
    (run [Update snippetB (px 20); ClickExpand; Update snippetH None]
       (mount snippetA (px 451))) = true.
Proof.
  apply (needsFolding_never_reverts (mount snippetA (px 451))
           [Update snippetB (px 20); ClickExpand; Update snippetH None]).
  reflexivity.
Defined.

(** X2: in every state an instance reaches from its mount, the block is
    expanded only if folding is enabled; while folding is not enabled the
    collapse flag is still true and a click on expand changes nothing. *)
Theorem expanded_only_when_foldable (p : CodeBlockProps)
    (el : option Element) (evs : list Event) :
  (isCollapsed (run evs (mount p el)) = false ->
   needsFolding (run evs (mount p el)) = true)
  /\ (needsFolding (run evs (mount p el)) = false ->
      isCollapsed (run evs (mount p el)) = true
      /\ step ClickExpand (run evs (mount p el)) = run evs (mount p el)).
Proof.
  destruct (reachable_foldInvariant p el evs) as (A & _).
  split; [exact A |].
  intros F. split.
  - destruct (isCollapsed (run evs (mount p el))); [reflexivity |].
    rewrite A in F by reflexivity. discriminate F.
  - simpl. unfold clickExpand, expandRendered. now rewrite F.
Qed.

Lemma expanded_only_when_foldable_witness :
  isCollapsed (run [ClickExpand; ClickCopy] (mount snippetA (px 450)))
  = true.
Proof.
  apply (expanded_only_when_foldable snippetA (px 450)
           [ClickExpand; ClickCopy]).
  reflexivity.
Defined.

(** X3: in every state an instance reaches from its mount, the recorded
    content height is above 450 when folding is enabled and still 0 when it
    is not; so the emitted max-height is absent, 400, or above 450, and
    expanding a collapsed block raises its max-height. *)
Theorem recorded_height_above_cutoff (p : CodeBlockProps)
    (el : option Element) (evs : list Event) :
  (needsFolding (run evs (mount p el)) = true ->
   (contentHeight (run evs (mount p el)) > 450)%Z)
  /\ (needsFolding (run evs (mount p el)) = false ->
      contentHeight (run evs (mount p el)) = 0%Z)
  /\ (maxHeight (run evs (mount p el)) = None
      \/ maxHeight (run evs (mount p el)) = Some 400%Z
      \/ exists h, maxHeight (run evs (mount p el)) = Some h
                   /\ (h > 450)%Z)
  /\ (collapsedClass (run evs (mount p el)) = true ->
      exists h, maxHeight (step ClickExpand (run evs (mount p el))) = Some h
                /\ (h > 400)%Z).
Proof.
  destruct (reachable_foldInvariant p el evs) as (_ & B & _).
  set (w := run evs (mount p el)) in *.
  unfold maxHeight, collapsedClass. simpl. unfold clickExpand, expandRendered,
    expandDisabled.
  destruct (needsFolding w) eqn:F; unfold FOLD_THRESHOLD in *.
  - split; [intros _; lia |]. split; [discriminate |]. split.
    + destruct (isCollapsed w); [right; left; reflexivity |].
      right; right. exists (contentHeight w). split; [reflexivity | lia].
    + cbn [andb]. intros C. rewrite C. cbn. rewrite F.
      exists (contentHeight w). split; [reflexivity | lia].
  - split; [discriminate |]. split; [intros _; exact B |].
    split; [left; reflexivity | discriminate].
Qed.

Lemma recorded_height_above_cutoff_witness :
  (contentHeight (run [Update snippetB (px 30)] (mount snippetA (px 600)))
   > 450)%Z.
Proof.
  apply (recorded_height_above_cutoff snippetA (px 600)
           [Update snippetB (px 30)]).
  reflexivity.
Defined.

(** X4: a re-render changes the fold cells only through a measurement above
    450.  When the new geometry is at most 450, or the region is detached,
    [needsFolding], the recorded height, the collapse flag and the emitted
    max-height are those of before, whatever the new props: a block folded
    for taller content stays clamped with the old height. *)
Theorem rerender_without_tall_measurement (w : Instance)
    (p : CodeBlockProps) (el : option Element) :
  (forall H, el = px H -> (H <= 450)%Z) ->
  needsFolding (rerender p el w) = needsFolding w
  /\ contentHeight (rerender p el w) = contentHeight w
  /\ isCollapsed (rerender p el w) = isCollapsed w
  /\ maxHeight (rerender p el w) = maxHeight w.
Proof.
  intros G.
  assert (K : needsFolding (rerender p el w) = needsFolding w
              /\ contentHeight (rerender p el w) = contentHeight w
              /\ isCollapsed (rerender p el w) = isCollapsed w).
  { unfold rerender. destruct (html p =? effectDeps w)%string.
    - repeat split.
    - effect_cases (withRender p el (html p) w).
      + exfalso. cbn in Eref. subst el. destruct el0 as [h].
        specialize (G h eq_refl). cbn [scrollHeight] in Ecmp.
        rewrite (within_cutoff h G) in Ecmp. discriminate Ecmp.
      + repeat split.
      + repeat split. }
  destruct K as (A & B & C). unfold maxHeight. now rewrite A, B, C.
Qed.

Lemma rerender_without_tall_measurement_witness :
  maxHeight (rerender snippetB (px 60) (mount snippetA (px 900)))
  = maxHeight (mount snippetA (px 900)).
Proof.
  apply (rerender_without_tall_measurement (mount snippetA (px 900))
           snippetB (px 60)).
  intros H E. injection E as <-. lia.
Defined.

(** * Further properties of the copy affordance *)

Lemma fire_eq (ts : list Timer) (w : Instance) :
  fire ts w = match ts with [] => w | _ :: _ => setCopied false w end.
Proof.
  revert w. induction ts as [|[d []] ts IH]; intros w; simpl.
  - reflexivity.
  - change (fire ts (setCopied false w) = setCopied false w).
    rewrite IH. now destruct ts.
Qed.

Lemma rerender_copy_cells (p : CodeBlockProps) (el : option Element)
    (w : Instance) :
  copied (rerender p el w) = copied w
  /\ now (rerender p el w) = now w
  /\ timers (rerender p el w) = timers w.
Proof.
  unfold rerender. destruct (html p =? effectDeps w)%string.
  - repeat split.
  - destruct (commit_env (withRender p el (html p) w)) as (_ & A & _ & B & C).
    now rewrite A, B, C.
Qed.

Lemma clickExpand_copy_cells (w : Instance) :
  props (clickExpand w) = props w
  /\ copied (clickExpand w) = copied w
  /\ clipboard (clickExpand w) = clipboard w
  /\ now (clickExpand w) = now w
  /\ timers (clickExpand w) = timers w.
Proof.
  unfold clickExpand.
  destruct (expandRendered w && negb (expandDisabled w)); repeat split.
Qed.

Lemma filter_none_expired (t : N) (ts : list Timer) :
  existsb (expired t) ts = false ->
  filter (fun tm => negb (expired t tm)) ts = ts.
Proof.
  induction ts as [|tm ts IH]; simpl; [reflexivity |].
  destruct (expired t tm); simpl; [discriminate |].
  intros E. now rewrite IH.
Qed.

Lemma filter_all_expired (t : N) (ts : list Timer) :
  (forall tm, In tm ts -> expired t tm = true) ->
  filter (fun tm => negb (expired t tm)) ts = [].
Proof.
  induction ts as [|tm ts IH]; intros X; simpl; [reflexivity |].
  rewrite (X tm (or_introl eq_refl)). simpl.
  apply IH. intros tm' I. apply X. now right.
Qed.

Lemma step_timerInvariant (e : Event) (w : Instance) :
  timerInvariant w -> timerInvariant (step e w).
Proof.
  intros (A & B). destruct e as [| |ms|p el]; simpl.
  - rewrite handleCopy_effect. unfold timerInvariant. cbn. split.
    + apply Forall_app. split; [exact A |].
      constructor; [cbn; lia | constructor].
    + intros _ E. destruct (timers w); discriminate E.
  - destruct (clickExpand_copy_cells w) as (_ & C & _ & D & E).
    unfold timerInvariant. now rewrite C, D, E.
  - unfold timerInvariant.
    rewrite elapse_now, elapse_timers, elapse_copied. split.
    + apply Forall_forall. intros tm I. apply filter_In in I.
      destruct I as (I & X). rewrite Forall_forall in A.
      specialize (A tm I). unfold expired in X.
      apply negb_true_iff, N.leb_gt in X. lia.
    + destruct (existsb (expired (now w + ms)) (timers w)) eqn:X;
        [discriminate |].
      intros C. rewrite (filter_none_expired _ _ X). exact (B C).
  - destruct (rerender_copy_cells p el w) as (C & D & E).
    unfold timerInvariant. now rewrite C, D, E.
Qed.

Lemma mount_timerInvariant (p : CodeBlockProps) (el : option Element) :
  timerInvariant (mount p el).
Proof.
  destruct (mount_env p el) as (_ & A & _ & _ & B & C).
  unfold timerInvariant. rewrite A, B, C. split.
  - constructor.
  - discriminate.
Qed.

Lemma reachable_timerInvariant (p : CodeBlockProps) (el : option Element)
    (evs : list Event) :
  timerInvariant (run evs (mount p el)).
Proof.
  apply run_invariant; [exact step_timerInvariant |].
  apply mount_timerInvariant.
Qed.

(** X5: the clipboard log is append-only and is written by clicks on the
    copy button alone: after any sequence of events it is the log of before
    followed by the [code] of the props that were current at each click, in
    order. *)
Theorem clipboard_is_log_of_copies (evs : list Event) (w : Instance) :
  clipboard (run evs w) = (clipboard w ++ copiedCodes evs (props w))%list
  /\ props (run evs w)
     = fold_left (fun q e => match e with Update p' _ => p' | _ => q end)
         evs (props w).
Proof.
  revert w. induction evs as [|e evs IH]; intros w.
  - simpl. now rewrite app_nil_r.
  - change (run (e :: evs) w) with (run evs (step e w)).
    destruct (IH (step e w)) as (A & B). rewrite A, B.
    destruct e as [| |ms|p el]; simpl.
    + rewrite <- app_assoc. split; reflexivity.
    + destruct (clickExpand_copy_cells w) as (C & _ & D & _).
      rewrite C, D. split; reflexivity.
    + destruct (elapse_frame ms w) as (_ & _ & _ & _ & D).
      destruct (elapse_props ms w) as (C & _).
      rewrite C, D. split; reflexivity.
    + destruct (rerender_env p el w) as (C & D & _).
      rewrite C, D. split; reflexivity.
Qed.

(** X6: the copy affordance and the fold controller do not interfere: a copy
    and a click on expand commute, and so do the passing of time and a click
    on expand. *)
Theorem copy_and_expand_commute (w : Instance) (ms : N) :
  handleCopy (clickExpand w) = clickExpand (handleCopy w)
  /\ elapse ms (clickExpand w) = clickExpand (elapse ms w).
Proof.
  split.
  - unfold clickExpand, expandRendered, expandDisabled.
    rewrite handleCopy_effect. cbn.
    destruct (needsFolding w && negb (negb (isCollapsed w))); reflexivity.
  - unfold elapse. rewrite !fire_eq.
    destruct (clickExpand_copy_cells w) as (_ & _ & _ & D & E).
    rewrite D, E.
    unfold clickExpand, expandRendered, expandDisabled.
    destruct (filter (expired (now w + ms)) (timers w)); cbn;
      destruct (needsFolding w && negb (negb (isCollapsed w))); reflexivity.
Qed.

(** X7: in every state an instance reaches from its mount, each pending
    timer is due after now and at most 2000 ms from now, and [copied] is true
    only while a timer is pending; hence once 2000 ms or more have passed
    without a copy, [copied] is false and no timer is left. *)
Theorem copied_always_reverts (p : CodeBlockProps) (el : option Element)
    (evs : list Event) :
  Forall (fun tm => (now (run evs (mount p el)) < due tm
                     <= now (run evs (mount p el)) + 2000)%N)
    (timers (run evs (mount p el)))
  /\ (copied (run evs (mount p el)) = true ->
      timers (run evs (mount p el)) <> [])
  /\ (forall ms, (2000 <= ms)%N ->
        copied (elapse ms (run evs (mount p el))) = false
        /\ timers (elapse ms (run evs (mount p el))) = []).
Proof.
  destruct (reachable_timerInvariant p el evs) as (A & B).
  set (w := run evs (mount p el)) in *.
  split; [exact A |]. split; [exact B |].
  intros ms L.
  assert (X : forall tm, In tm (timers w) -> expired (now w + ms) tm = true).
  { rewrite Forall_forall in A. intros tm I. specialize (A tm I).
    unfold expired. apply N.leb_le. lia. }
  rewrite elapse_copied, elapse_timers. split.
  - destruct (timers w) as [|tm ts] eqn:T.
    + cbn. destruct (copied w); [| reflexivity].
      exfalso. now apply B.
    + cbn. now rewrite (X tm (or_introl eq_refl)).
  - apply filter_all_expired. exact X.
Qed.

Lemma copied_always_reverts_witness :
  copied (elapse 2000
            (run [ClickCopy; Elapse 1500; ClickCopy; Elapse 1999]
               (mount snippetA (px 10)))) = false.
Proof.
  apply (copied_always_reverts snippetA (px 10)
           [ClickCopy; Elapse 1500; ClickCopy; Elapse 1999]).
  discriminate.
Defined.

(** * Further properties of the render input adapter *)

Lemma fallback_injective (a b : string) : fallback a = fallback b -> a = b.
Proof.
  intros E.
  assert (L : String.length a = String.length b).
  { apply (f_equal String.length) in E. rewrite !fallback_length in E. lia. }
  rewrite <- (substring_middle fallback_open a fallback_close).
  rewrite <- (substring_middle fallback_open b fallback_close).
  fold (fallback a). fold (fallback b). now rewrite E, L.
Qed.

Lemma html_without_highlight (p : CodeBlockProps) :
  highlightedHtml p = None -> html p = fallback (code p).
Proof. intros E. unfold html. now rewrite E. Qed.

Lemma html_with_highlight (p : CodeBlockProps) (m : string) :
  highlightedHtml p = Some m -> m <> EmptyString -> html p = m.
Proof.
  intros E N. unfold html. rewrite E. destruct m; [contradiction | reflexivity].
Qed.

(** X8: the markup handed to the DOM is never the empty string, whatever the
    props, and among props without highlighted markup it determines the code:
    two such props have the same markup exactly when they have the same
    code. *)
Theorem markup_nonempty_and_faithful (p q : CodeBlockProps) :
  html p <> EmptyString
  /\ (highlightedHtml p = None -> highlightedHtml q = None ->
      (html p = html q <-> code p = code q)).
Proof.
  split.
  - unfold html, js_or. destruct (highlightedHtml p) as [[|c m]|];
      discriminate.
  - intros A B. rewrite (html_without_highlight p A),
      (html_without_highlight q B). split.
    + apply fallback_injective.
    + now intros ->.
Qed.

Lemma markup_nonempty_and_faithful_witness :
  html snippetA = html snippetB <-> code snippetA = code snippetB.
Proof.
  apply (markup_nonempty_and_faithful snippetA snippetB); reflexivity.
Defined.

(** X9: in a state an instance reaches from its mount, a re-render measures
    again exactly when its markup differs from that of the current props.
    Without highlighted markup on either side every change of [code]
    measures again, so new code taller than 450 is folded; with the same
    non-empty highlighted markup on both sides nothing is measured, whatever
    the new code and geometry, and the fold cells stay as they were. *)
Theorem remeasure_when_markup_changes (p0 : CodeBlockProps)
    (el0 : option Element) (evs : list Event) (p : CodeBlockProps)
    (el : option Element) :
  (html p <> html (props (run evs (mount p0 el0))) ->
   layoutEffect (withRender p el (html p) (run evs (mount p0 el0)))
   = inr (rerender p el (run evs (mount p0 el0))))
  /\ (html p = html (props (run evs (mount p0 el0))) ->
      rerender p el (run evs (mount p0 el0))
      = withRender p el (html p) (run evs (mount p0 el0)))
  /\ (highlightedHtml p = None ->
      highlightedHtml (props (run evs (mount p0 el0))) = None ->
      code p <> code (props (run evs (mount p0 el0))) ->
      forall H, el = px H -> (H > 450)%Z ->
        needsFolding (rerender p el (run evs (mount p0 el0))) = true
        /\ contentHeight (rerender p el (run evs (mount p0 el0))) = H)
  /\ (forall m, m <> EmptyString ->
        highlightedHtml p = Some m ->
        highlightedHtml (props (run evs (mount p0 el0))) = Some m ->
        needsFolding (rerender p el (run evs (mount p0 el0)))
        = needsFolding (run evs (mount p0 el0))
        /\ contentHeight (rerender p el (run evs (mount p0 el0)))
           = contentHeight (run evs (mount p0 el0))).
Proof.
  destruct (reachable_foldInvariant p0 el0 evs) as (_ & _ & D).
  set (w := run evs (mount p0 el0)) in *.
  assert (Same : html p = html (props w) ->
                 rerender p el w = withRender p el (html p) w).
  { intros E. unfold rerender. rewrite D, <- E, String.eqb_refl.
    reflexivity. }
  assert (Diff : html p <> html (props w) ->
                 rerender p el w
                 = commitLayoutEffect (withRender p el (html p) w)).
  { intros N. apply rerender_changed. now rewrite D. }
  split; [intros N; rewrite (Diff N); apply layoutEffect_returns |].
  split; [exact Same |].
  split.
  - intros A B N H -> G.
    assert (N' : html p <> html (props w)).
    { rewrite (html_without_highlight p A), (html_without_highlight _ B).
      intros E. apply N. now apply fallback_injective. }
    rewrite (Diff N').
    rewrite (commit_attached (withRender p (px H) (html p) w)
               (mkElement H) eq_refl).
    cbn [scrollHeight]. rewrite (over_cutoff H G). split; reflexivity.
  - intros m N A B.
    rewrite Same; [split; reflexivity |].
    now rewrite (html_with_highlight p m A N),
      (html_with_highlight _ m B N).
Qed.

Lemma remeasure_when_markup_changes_witness :
  needsFolding (rerender snippetB (px 800)
                  (run [ClickCopy] (mount snippetA (px 100)))) = true.
Proof.
  destruct (remeasure_when_markup_changes snippetA (px 100) [ClickCopy]
              snippetB (px 800)) as (_ & _ & A & _).
  destruct (A eq_refl eq_refl) with (H := 800%Z) as (B & _).
  - apply String.eqb_neq. reflexivity.
  - reflexivity.
  - lia.
  - exact B.
Defined.

(** * The language badge *)

Lemma lowerChar_idem (c : ascii) : lowerChar (lowerChar c) = lowerChar c.
Proof.
  destruct c as [[] [] [] [] [] [] [] []]; reflexivity.
Qed.

Lemma toLowerCase_idem (s : string) :
  toLowerCase (toLowerCase s) = toLowerCase s.
Proof.
  induction s as [|c s IH]; simpl; [reflexivity |].
  now rewrite lowerChar_idem, IH.
Qed.

Lemma lookup_In {A : Type} (o : list (string * A)) (k : string) (v : A) :
  lookup o k = Some v -> In (k, v) o.
Proof.
  induction o as [|[k' v'] o IH]; simpl; [discriminate |].
  destruct (String.eqb_spec k k') as [->|N].
  - intros E. injection E as ->. now left.
  - intros E. right. now apply IH.
Qed.

(** No key of the table is shadowed by an earlier one. *)
Lemma LANGUAGE_MAP_lookup (k v : string) :
  In (k, v) LANGUAGE_MAP -> lookup LANGUAGE_MAP k = Some v.
Proof.
  unfold LANGUAGE_MAP. intros I.
  repeat (destruct I as [I|I];
          [injection I as <- <-; reflexivity |]).
  destruct I.
Qed.

(** Every key of the table is in lower case and every label is non-empty. *)
Lemma LANGUAGE_MAP_entries (k v : string) :
  In (k, v) LANGUAGE_MAP -> toLowerCase k = k /\ v <> EmptyString.
Proof.
  unfold LANGUAGE_MAP. intros I.
  repeat (destruct I as [I|I];
          [injection I as <- <-; split; [reflexivity | discriminate] |]).
  destruct I.
Qed.

(** Of the names an object inherits, only two are in lower case. *)
Lemma inherited_lowercase (k : string) (v : JsValue) :
  lookup OBJECT_PROTOTYPE k = Some v ->
  toLowerCase k = k ->
  (k = "constructor" /\ v = JsFunction) \/ (k = "__proto__" /\ v = JsObject).
Proof.
  intros L. apply lookup_In in L. unfold OBJECT_PROTOTYPE in L.
  destruct L as [L|L]; [injection L as <- <-; left; split; reflexivity |].
  destruct L as [L|L]; [injection L as <- <-; right; split; reflexivity |].
  intros E.
  repeat (destruct L as [L|L];
          [injection L as <- <-; vm_compute in E; discriminate E |]).
  destruct L.
Qed.

Lemma displayLanguage_lower (l : string) :
  displayLanguage (Some l)
  = match toLowerCase l with
    | EmptyString => JsString "text"
    | String c rest =>
        match getProperty (String c rest) with
        | Some v => if truthy v then v else JsString (String c rest)
        | None => JsString (String c rest)
        end
    end.
Proof. destruct l; reflexivity. Qed.

(** X10: the badge is a non-empty string for every language, null and the
    empty string included (they give "text"), except for the two lower-case
    names the table inherits from [Object.prototype]: a language that is
    [constructor] up to case yields a function and one that is [__proto__]
    the prototype object.  Languages are ASCII strings here. *)
Theorem badge_is_nonempty_label (l : string) :
  isAscii l = true ->
  displayLanguage None = JsString "text"
  /\ displayLanguage (Some EmptyString) = JsString "text"
  /\ (toLowerCase l <> "constructor" -> toLowerCase l <> "__proto__" ->
      exists s, displayLanguage (Some l) = JsString s /\ s <> EmptyString)
  /\ (toLowerCase l = "constructor" -> displayLanguage (Some l) = JsFunction)
  /\ (toLowerCase l = "__proto__" -> displayLanguage (Some l) = JsObject).
Proof.
  intros _.
  split; [reflexivity |]. split; [reflexivity |].
  rewrite displayLanguage_lower.
  split; [| split; intros ->; reflexivity].
  intros N1 N2.
  pose proof (toLowerCase_idem l) as I.
  destruct (toLowerCase l) as [|c k] eqn:K.
  - eexists. split; [reflexivity | discriminate].
  - unfold getProperty.
    destruct (lookup LANGUAGE_MAP (String c k)) as [label|] eqn:Own.
    + apply lookup_In, LANGUAGE_MAP_entries in Own. destruct Own as [_ NE].
      exists label. split; [| exact NE].
      destruct label; [contradiction | reflexivity].
    + destruct (lookup OBJECT_PROTOTYPE (String c k)) as [v|] eqn:Inh.
      * destruct (inherited_lowercase _ _ Inh I) as [[E _]|[E _]];
          contradiction.
      * eexists. split; [reflexivity | discriminate].
Qed.

Lemma badge_is_nonempty_label_witness :
  exists s, displayLanguage (Some "WeirdLang") = JsString s
            /\ s <> EmptyString.
Proof.
  apply (badge_is_nonempty_label "WeirdLang" eq_refl); discriminate.
Defined.

(** X11: the badge does not depend on the case of the language: two
    languages with the same lower-case form have the same badge, and a
    language whose lower-case form is a key of the table shows the label of
    that key.  Every key of the table is itself in lower case and not
    shadowed, so each entry is in effect.  Languages are ASCII strings
    here. *)
Theorem badge_ignores_case (a b : string) :
  isAscii a = true -> isAscii b = true ->
  (toLowerCase a = toLowerCase b ->
   displayLanguage (Some a) = displayLanguage (Some b))
  /\ (forall label, In (toLowerCase a, label) LANGUAGE_MAP ->
        displayLanguage (Some a) = JsString label)
  /\ (forall k label, In (k, label) LANGUAGE_MAP ->
        displayLanguage (Some k) = JsString label).
Proof.
  intros _ _.
  assert (G : forall l label, In (toLowerCase l, label) LANGUAGE_MAP ->
                displayLanguage (Some l) = JsString label).
  { intros l label I. rewrite displayLanguage_lower.
    pose proof (LANGUAGE_MAP_lookup _ _ I) as L.
    destruct (LANGUAGE_MAP_entries _ _ I) as [_ NE].
    destruct (toLowerCase l) as [|c k]; [discriminate L |].
    unfold getProperty. rewrite L.
    destruct label; [contradiction | reflexivity]. }
  split; [| split].
  - intros E. now rewrite !displayLanguage_lower, E.
  - apply G.
  - intros k label I. apply G.
    destruct (LANGUAGE_MAP_entries _ _ I) as [E _]. now rewrite E.
Qed.

Lemma badge_ignores_case_witness :
  displayLanguage (Some "TypeScript") = displayLanguage (Some "TYPESCRIPT")
  /\ displayLanguage (Some "Py") = JsString "Python".
Proof.
  destruct (badge_ignores_case "TypeScript" "TYPESCRIPT" eq_refl eq_refl)
    as (A & _).
  destruct (badge_ignores_case "Py" "py" eq_refl eq_refl) as (_ & B & _).
  split.
  - apply A. reflexivity.
  - apply B. cbn. tauto.
Defined.
